(** * hwmsen_custom.h: sensor HAL configuration constants

    The header is a list of preprocessor directives: an include guard, an
    empty selector macro, four per-type minimum delays and the macro block
    of one uncalibrated-pressure sensor descriptor.  It is embedded as the
    directive list itself, run through a small model of the preprocessor
    (object-like macros, [#ifndef]/[#endif], rescanning of replacement
    lists), with the literals given their value as C constants. *)

From Stdlib Require Import ZArith QArith Qround Qabs Lqa String List Bool Lia.
Import ListNotations.
Open Scope string_scope.
Open Scope list_scope.
Open Scope Z_scope.

(** ** The constants, as written in the header *)

Definition MAX_NUM_SENSORS : Z := 1.

Definition MAGNETOMETER_MINDELAY : Z := 20000.
Definition ORIENTATION_MINDELAY : Z := 20000.
Definition ACCELEROMETER_MINDELAY : Z := 10000.
Definition GYROSCOPE_MINDELAY : Z := 10000.

Definition UNCALI_PRESSURE : string := "UNCALI_PRESSURE".
Definition UNCALI_PRESSURE_VENDER : string := "Bosch".
Definition UNCALI_PRESSURE_VERSION : Z := 1.
(** The decimal part of [1572.86f]; the suffix is kept by the token. *)
Definition UNCALI_PRESSURE_RANGE : Q := 1572.86.
Definition UNCALI_PRESSURE_RESOLUTION : Q := 0.0016.
Definition UNCALI_PRESSURE_POWER : Z := 0.
Definition UNCALI_PRESSURE_MINDELAY : Z := 20000.
Definition UNCALI_PRESSURE_FIFO_MAX_COUNT : Z := 0.
Definition UNCALI_PRESSURE_FIFO_RESERVE_COUNT : Z := 0.
Definition UNCALI_PRESSURE_MAXDELAY : Z := 1000000.

(** ** Preprocessing tokens and directives *)

(** Suffix of a floating constant: [f] makes it a [float], none a [double]. *)
Inductive float_suffix : Type :=
| SuffixF
| NoSuffix.

Inductive token : Type :=
| IntLit (n : Z)
| FloatLit (q : Q) (sfx : float_suffix)
| StrLit (s : string)
| Ident (x : string).

Inductive directive : Type :=
| Ifndef (x : string)
| Define (x : string) (body : list token)
| Endif.

(** The replacement list of [UNCALI_PRESSURE_FLAGS]: one identifier that the
    header itself never defines. *)
Definition UNCALI_PRESSURE_FLAGS : list token :=
  [Ident "SENSOR_FLAG_CONTINUOUS_MODE"].

(** The header, directive by directive, in source order. *)
Definition hwmsen_custom_h : list directive :=
  [ Ifndef "__HWMSEN_CUSTOM_H__";
    Define "__HWMSEN_CUSTOM_H__" [];
    Define "MAX_NUM_SENSORS" [IntLit MAX_NUM_SENSORS];
    Define "MSENSOR_AMI_LIB" [];
    Define "MAGNETOMETER_MINDELAY" [IntLit MAGNETOMETER_MINDELAY];
    Define "ORIENTATION_MINDELAY" [IntLit ORIENTATION_MINDELAY];
    Define "ACCELEROMETER_MINDELAY" [IntLit ACCELEROMETER_MINDELAY];
    Define "GYROSCOPE_MINDELAY" [IntLit GYROSCOPE_MINDELAY];
    Define "UNCALI_PRESSURE" [StrLit UNCALI_PRESSURE];
    Define "UNCALI_PRESSURE_VENDER" [StrLit UNCALI_PRESSURE_VENDER];
    Define "UNCALI_PRESSURE_VERSION" [IntLit UNCALI_PRESSURE_VERSION];
    Define "UNCALI_PRESSURE_RANGE" [FloatLit UNCALI_PRESSURE_RANGE SuffixF];
    Define "UNCALI_PRESSURE_RESOLUTION"
           [FloatLit UNCALI_PRESSURE_RESOLUTION NoSuffix];
    Define "UNCALI_PRESSURE_POWER" [IntLit UNCALI_PRESSURE_POWER];
    Define "UNCALI_PRESSURE_MINDELAY" [IntLit UNCALI_PRESSURE_MINDELAY];
    Define "UNCALI_PRESSURE_FIFO_MAX_COUNT"
           [IntLit UNCALI_PRESSURE_FIFO_MAX_COUNT];
    Define "UNCALI_PRESSURE_FIFO_RESERVE_COUNT"
           [IntLit UNCALI_PRESSURE_FIFO_RESERVE_COUNT];
    Define "UNCALI_PRESSURE_MAXDELAY" [IntLit UNCALI_PRESSURE_MAXDELAY];
    Define "UNCALI_PRESSURE_FLAGS" UNCALI_PRESSURE_FLAGS;
    Endif ].

(** ** The preprocessor *)

(** Macro table: names in definition order, each with its replacement list. *)
Definition macro_table : Type := list (string * list token).

Fixpoint lookup (x : string) (t : macro_table) : option (list token) :=
  match t with
  | [] => None
  | (y, b) :: t' => if String.eqb x y then Some b else lookup x t'
  end.

Definition defined (x : string) (t : macro_table) : bool :=
  match lookup x t with Some _ => true | None => false end.

Fixpoint undef (x : string) (t : macro_table) : macro_table :=
  match t with
  | [] => []
  | (y, b) :: t' => if String.eqb x y then undef x t' else (y, b) :: undef x t'
  end.

(** A later definition of a name replaces the earlier one. *)
Definition define (x : string) (b : list token) (t : macro_table) : macro_table :=
  undef x t ++ [(x, b)].

(** State while reading a file: the table and, innermost first, whether each
    open conditional group is being kept. *)
Record pp_state : Type := mk_pp_state {
  table : macro_table;
  groups : list bool
}.

Definition active (st : pp_state) : bool := forallb (fun b => b) (groups st).

Definition pp_step (st : pp_state) (d : directive) : pp_state :=
  match d with
  | Ifndef x =>
      mk_pp_state (table st)
                  ((active st && negb (defined x (table st))) :: groups st)
  | Define x b =>
      if active st then mk_pp_state (define x b (table st)) (groups st)
      else st
  | Endif => mk_pp_state (table st) (tl (groups st))
  end.

Definition preprocess (ds : list directive) (t : macro_table) : macro_table :=
  table (fold_left pp_step ds (mk_pp_state t [])).

(** The macros a translation unit has after its first inclusion of the
    header. *)
Definition macros : macro_table := preprocess hwmsen_custom_h [].

(** Full macro replacement of a token list.  A macro is not replaced again
    inside its own replacement list, so each step rescans with the macro
    taken out of the table; [fuel] bounds the nesting of replacements. *)
Fixpoint expand (fuel : nat) (t : macro_table) (ts : list token) : list token :=
  match fuel with
  | O => ts
  | S fuel' =>
      flat_map
        (fun tk =>
           match tk with
           | Ident x =>
               match lookup x t with
               | Some b => expand fuel' (undef x t) b
               | None => [tk]
               end
           | _ => [tk]
           end) ts
  end.

(** Nesting never goes deeper than the number of macros. *)
Definition expand_macros (t : macro_table) (ts : list token) : list token :=
  expand (S (length t)) t ts.

(** ** Values of constants *)

(** Largest value of the 32-bit [int] of the target. *)
Definition INT_MAX : Z := 2 ^ 31 - 1.

Definition pow2 (e : Z) : Q := Qpower 2%Q e.

(** [floor (log2 a)] for a positive rational [a]. *)
Definition ilog2 (a : Q) : Z :=
  let e := Z.log2 (Qnum a) - Z.log2 (Zpos (Qden a)) in
  if Qle_bool (pow2 e) a then e else e - 1.

(** Nearest integer, ties to even. *)
Definition round_half_even (q : Q) : Z :=
  let f := Qfloor q in
  match Qcompare (q - inject_Z f)%Q (1 # 2)%Q with
  | Lt => f
  | Gt => f + 1
  | Eq => if Z.even f then f else f + 1
  end.

(** IEEE-754 round-to-nearest-even to a binary format of precision [prec]
    and least normal exponent [emin], which is how the compilers of the
    target turn a decimal floating constant into its value.  Overflow to
    infinity is left out: no constant of the header comes near it. *)
Definition round_binary (prec emin : Z) (q : Q) : Q :=
  match Qcompare q 0%Q with
  | Eq => 0%Q
  | c =>
      let a := Qabs q in
      let e := Z.max (ilog2 a) emin in
      let ulp := pow2 (e - prec + 1) in
      let m := (inject_Z (round_half_even (a / ulp)) * ulp)%Q in
      Qred (match c with Lt => (- m)%Q | _ => m end)
  end.

Definition round_float : Q -> Q := round_binary 24 (-126).
Definition round_double : Q -> Q := round_binary 53 (-1022).

Inductive c_value : Type :=
| VInt (n : Z)
| VFloat (q : Q)
| VDouble (q : Q)
| VStr (s : string).

(** Symbols that are not macros (enumeration constants of other headers)
    get their value from the including translation unit. *)
Definition extern_env : Type := string -> option Z.

Definition eval_token (ext : extern_env) (tk : token) : option c_value :=
  match tk with
  | IntLit n =>
      (* an undecorated decimal constant is an [int] when it fits one *)
      if (0 <=? n) && (n <=? INT_MAX) then Some (VInt n) else None
  | FloatLit q SuffixF => Some (VFloat (round_float q))
  | FloatLit q NoSuffix => Some (VDouble (round_double q))
  | StrLit s => Some (VStr s)
  | Ident x => option_map VInt (ext x)
  end.

(** The decimal number a literal token spells, before any rounding. *)
Definition literal_value (tk : token) : option Q :=
  match tk with
  | IntLit n => Some (inject_Z n)
  | FloatLit q _ => Some q
  | _ => None
  end.

(** Value of the macro [x] where it is used as an expression. *)
Definition macro_value (ext : extern_env) (t : macro_table) (x : string)
  : option c_value :=
  match lookup x t with
  | None => None
  | Some _ =>
      match expand_macros t [Ident x] with
      | [tk] => eval_token ext tk
      | _ => None
      end
  end.

Definition macro_int (ext : extern_env) (t : macro_table) (x : string)
  : option Z :=
  match macro_value ext t x with
  | Some (VInt n) => Some n
  | _ => None
  end.

Definition macro_num (ext : extern_env) (t : macro_table) (x : string)
  : option Q :=
  match macro_value ext t x with
  | Some (VInt n) => Some (inject_Z n)
  | Some (VFloat q) => Some q
  | Some (VDouble q) => Some q
  | _ => None
  end.

Definition macro_str (ext : extern_env) (t : macro_table) (x : string)
  : option string :=
  match macro_value ext t x with
  | Some (VStr s) => Some s
  | _ => None
  end.

(** ** Sensor descriptors *)

(** Modelled from the spec: the descriptor record of the sensor framework
    is declared outside this header; the fields are those of the spec's
    data model.  A floating-point field holds the value of the constant
    that initialises it. *)
Record descriptor : Type := mk_descriptor {
  name : string;
  vendor : string;
  version : Z;
  range : Q;
  resolution : Q;
  power : Q;
  min_delay : Z;
  max_delay : Z;
  fifo_max_count : Z;
  fifo_reserve_count : Z;
  flags : Z
}.

(** The macro block of a descriptor: the name macro [P] and [P_VENDER],
    [P_VERSION], ... as the header lays them out for [UNCALI_PRESSURE]. *)
Definition descriptor_fields : list string :=
  [ ""; "_VENDER"; "_VERSION"; "_RANGE"; "_RESOLUTION"; "_POWER";
    "_MINDELAY"; "_FIFO_MAX_COUNT"; "_FIFO_RESERVE_COUNT"; "_MAXDELAY";
    "_FLAGS" ].

Definition has_block (t : macro_table) (p : string) : bool :=
  forallb (fun f => defined (p ++ f)%string t) descriptor_fields.

(** The sensor types the header defines a descriptor for. *)
Definition descriptor_names (t : macro_table) : list string :=
  filter (has_block t) (map fst t).

Definition bind {A B : Type} (o : option A) (k : A -> option B) : option B :=
  match o with
  | Some a => k a
  | None => None
  end.

Notation "x <- o ;; k" := (bind o (fun x => k))
  (at level 61, o at next level, right associativity).

(** Modelled from the spec: the registration code that fills one descriptor
    from the macro block of the sensor type [p]. *)
Definition build_descriptor (ext : extern_env) (t : macro_table) (p : string)
  : option descriptor :=
  n <- macro_str ext t p ;;
  v <- macro_str ext t (p ++ "_VENDER") ;;
  ver <- macro_int ext t (p ++ "_VERSION") ;;
  rng <- macro_num ext t (p ++ "_RANGE") ;;
  res <- macro_num ext t (p ++ "_RESOLUTION") ;;
  pw <- macro_num ext t (p ++ "_POWER") ;;
  mind <- macro_int ext t (p ++ "_MINDELAY") ;;
  fmax <- macro_int ext t (p ++ "_FIFO_MAX_COUNT") ;;
  fres <- macro_int ext t (p ++ "_FIFO_RESERVE_COUNT") ;;
  maxd <- macro_int ext t (p ++ "_MAXDELAY") ;;
  fl <- macro_int ext t (p ++ "_FLAGS") ;;
  Some (mk_descriptor n v ver rng res pw mind maxd fmax fres fl).

(** Modelled from the spec: the consumer that enumerates the descriptors of
    a configuration, one per sensor type with a macro block, in the order
    of the header. *)
Definition enumerate (ext : extern_env) (t : macro_table) : list descriptor :=
  flat_map
    (fun p => match build_descriptor ext t p with
              | Some d => [d]
              | None => []
              end)
    (descriptor_names t).

(** What the consumer reports of a descriptor in the end-to-end scenario. *)
Definition report (d : descriptor) : string * string * Z * Z * Z :=
  (name d, vendor d, min_delay d, max_delay d, fifo_max_count d).

(** The four per-type floors of the rate negotiation. *)
Definition mindelay_constants : list (string * Z) :=
  [ ("MAGNETOMETER_MINDELAY", MAGNETOMETER_MINDELAY);
    ("ORIENTATION_MINDELAY", ORIENTATION_MINDELAY);
    ("ACCELEROMETER_MINDELAY", ACCELEROMETER_MINDELAY);
    ("GYROSCOPE_MINDELAY", GYROSCOPE_MINDELAY) ].

(** A translation unit in which the flag symbol has the value [v]. *)
Definition with_flag (v : Z) : extern_env :=
  fun x => if String.eqb x "SENSOR_FLAG_CONTINUOUS_MODE" then Some v else None.

(** The descriptor of the header when the flag symbol has the value [v]. *)
Definition uncali_pressure_descriptor (v : Z) : descriptor :=
  mk_descriptor UNCALI_PRESSURE UNCALI_PRESSURE_VENDER UNCALI_PRESSURE_VERSION
                (round_float UNCALI_PRESSURE_RANGE)
                (round_double UNCALI_PRESSURE_RESOLUTION)
                (inject_Z UNCALI_PRESSURE_POWER)
                UNCALI_PRESSURE_MINDELAY UNCALI_PRESSURE_MAXDELAY
                UNCALI_PRESSURE_FIFO_MAX_COUNT
                UNCALI_PRESSURE_FIFO_RESERVE_COUNT v.

(** The literal a macro is defined as, read as a decimal number. *)
Definition macro_literal (t : macro_table) (x : string) : option Q :=
  match lookup x t with
  | Some [tk] => literal_value tk
  | _ => None
  end.

(** The macros whose replacement is a string literal, with that string. *)
Definition string_macros (t : macro_table) : list (string * string) :=
  flat_map
    (fun xb => match expand_macros t [Ident (fst xb)] with
               | [StrLit s] => [(fst xb, s)]
               | _ => []
               end) t.

(** The [#define] line of a table entry. *)
Definition define_directive (xb : string * list token) : directive :=
  Define (fst xb) (snd xb).

(** Defining the entries of [l] one after the other on top of [t]. *)
Definition define_all (l t : macro_table) : macro_table :=
  fold_left (fun t' xb => define (fst xb) (snd xb) t') l t.

(** The macros defined with an empty replacement list. *)
Definition empty_macros (t : macro_table) : list string :=
  map fst
      (filter (fun xb => match snd xb with [] => true | _ => false end) t).

(** * Properties *)

(** ** The preprocessor model *)

Lemma undef_length (x : string) (t : macro_table) :
  (length (undef x t) <= length t)%nat.
Proof.
  induction t as [|[y b] t IH]; simpl; [lia|].
  destruct (String.eqb x y); simpl; lia.
Qed.

Lemma lookup_undef_length (x : string) (t : macro_table) (b : list token) :
  lookup x t = Some b -> (length (undef x t) < length t)%nat.
Proof.
  induction t as [|[y c] t IH]; simpl; [discriminate|].
  destruct (String.eqb x y); intro H.
  - pose proof (undef_length x t). lia.
  - specialize (IH H). simpl. lia.
Qed.

Lemma lookup_undef_same (x : string) (t : macro_table) :
  lookup x (undef x t) = None.
Proof.
  induction t as [|[y c] t IH]; simpl; [reflexivity|].
  destruct (String.eqb x y) eqn:E; [assumption|].
  simpl. rewrite E. assumption.
Qed.

(** More fuel than there are macros changes nothing: replacement always
    comes to an end within [expand_macros]. *)
Lemma expand_fuel (n m : nat) :
  forall (t : macro_table) (ts : list token),
    (length t < n)%nat -> (length t < m)%nat ->
    expand n t ts = expand m t ts.
Proof.
  revert m. induction n as [|n IH]; intros m t ts Hn Hm; [lia|].
  destruct m as [|m]; [lia|]. simpl.
  apply flat_map_ext. intros [k|q sfx|s|x]; try reflexivity.
  destruct (lookup x t) as [b|] eqn:E; [|reflexivity].
  apply lookup_undef_length in E. apply IH; lia.
Qed.

(** A group that is being skipped defines nothing. *)
Lemma skipped_defines (ds : list directive) :
  forall st : pp_state,
    active st = false ->
    forallb (fun d => match d with Define _ _ => true | _ => false end) ds
    = true ->
    fold_left pp_step ds st = st.
Proof.
  induction ds as [|d ds IH]; intros st Hst Hds; [reflexivity|].
  simpl in Hds. apply andb_true_iff in Hds as [Hd Hds].
  destruct d as [x|x b|]; try discriminate.
  simpl. rewrite Hst. apply IH; assumption.
Qed.

(** The include guard: once the guard macro is defined, reading the header
    again leaves every macro as it is. *)
Lemma include_guard (t : macro_table) :
  defined "__HWMSEN_CUSTOM_H__" t = true ->
  preprocess hwmsen_custom_h t = t.
Proof.
  intro H. unfold preprocess.
  change hwmsen_custom_h
    with (Ifndef "__HWMSEN_CUSTOM_H__"
            :: removelast (tl hwmsen_custom_h) ++ [Endif]).
  cbn [fold_left]. rewrite fold_left_app.
  rewrite (skipped_defines (removelast (tl hwmsen_custom_h))).
  - reflexivity.
  - unfold pp_step, active. cbn [groups table forallb]. rewrite H. reflexivity.
  - reflexivity.
Qed.

Lemma second_inclusion : preprocess hwmsen_custom_h macros = macros.
Proof. apply include_guard. reflexivity. Qed.

(** ** Rounding *)

Lemma round_half_even_near (q : Q) :
  (Qabs (inject_Z (round_half_even q) - q) <= 1 # 2)%Q.
Proof.
  unfold round_half_even.
  pose proof (Qfloor_le q) as Hlo.
  pose proof (Qlt_floor q) as Hhi.
  rewrite inject_Z_plus in Hhi. change (inject_Z 1) with 1%Q in Hhi.
  apply Qabs_Qle_condition.
  destruct (Qcompare (q - inject_Z (Qfloor q)) (1 # 2)) eqn:E.
  - apply Qeq_alt in E.
    destruct (Z.even (Qfloor q));
      [|rewrite inject_Z_plus; change (inject_Z 1) with 1%Q]; split; lra.
  - apply Qlt_alt in E. split; lra.
  - apply Qgt_alt in E. rewrite inject_Z_plus.
    change (inject_Z 1) with 1%Q. split; lra.
Qed.

Example round_float_tenth : round_float 0.1 = (13421773 # 134217728)%Q.
Proof. reflexivity. Qed.

Example round_double_tenth :
  round_double 0.1 = (3602879701896397 # 36028797018963968)%Q.
Proof. reflexivity. Qed.

Example round_float_tie : round_float 16777217 = 16777216%Q.
Proof. reflexivity. Qed.

(** The [float] nearest to 1572.86 is 12884869 / 2^13, a little below it. *)
Lemma range_as_float :
  round_float UNCALI_PRESSURE_RANGE = (12884869 # 8192)%Q /\
  (round_float UNCALI_PRESSURE_RANGE < UNCALI_PRESSURE_RANGE)%Q.
Proof. split; reflexivity. Qed.

(** The [double] nearest to 0.0016 is 7378697629483821 / 2^62, a little
    above it. *)
Lemma resolution_as_double :
  round_double UNCALI_PRESSURE_RESOLUTION
  = (7378697629483821 # 4611686018427387904)%Q /\
  (UNCALI_PRESSURE_RESOLUTION < round_double UNCALI_PRESSURE_RESOLUTION)%Q.
Proof. split; reflexivity. Qed.

(** ** Evaluation of the header *)

Lemma descriptor_names_macros : descriptor_names macros = ["UNCALI_PRESSURE"].
Proof. reflexivity. Qed.

(** None of the four per-type delay macros belongs to a descriptor block. *)
Lemma mindelay_not_descriptors :
  forallb (fun p => negb (has_block macros p))
          ["MAGNETOMETER"; "ORIENTATION"; "ACCELEROMETER"; "GYROSCOPE"] = true.
Proof. reflexivity. Qed.

Lemma flags_value (ext : extern_env) :
  macro_int ext macros "UNCALI_PRESSURE_FLAGS"
  = ext "SENSOR_FLAG_CONTINUOUS_MODE".
Proof.
  unfold macro_int, macro_value.
  change (lookup "UNCALI_PRESSURE_FLAGS" macros) with (Some UNCALI_PRESSURE_FLAGS).
  change (expand_macros macros [Ident "UNCALI_PRESSURE_FLAGS"])
    with [Ident "SENSOR_FLAG_CONTINUOUS_MODE"].
  cbn [eval_token]. destruct (ext "SENSOR_FLAG_CONTINUOUS_MODE"); reflexivity.
Qed.

Lemma build_uncali_pressure (ext : extern_env) :
  build_descriptor ext macros "UNCALI_PRESSURE"
  = option_map uncali_pressure_descriptor (ext "SENSOR_FLAG_CONTINUOUS_MODE").
Proof.
  unfold build_descriptor.
  change ("UNCALI_PRESSURE" ++ "_FLAGS")%string with "UNCALI_PRESSURE_FLAGS".
  rewrite flags_value.
  destruct (ext "SENSOR_FLAG_CONTINUOUS_MODE"); reflexivity.
Qed.

Lemma enumerate_macros (ext : extern_env) :
  enumerate ext macros
  = match ext "SENSOR_FLAG_CONTINUOUS_MODE" with
    | Some v => [uncali_pressure_descriptor v]
    | None => []
    end.
Proof.
  unfold enumerate. rewrite descriptor_names_macros.
  cbn [flat_map]. rewrite build_uncali_pressure.
  destruct (ext "SENSOR_FLAG_CONTINUOUS_MODE"); reflexivity.
Qed.

(** Every descriptor a consumer can enumerate from the header keeps the
    invariants of the data model, whatever the other headers define. *)
Lemma enumerated_descriptors_well_formed (ext : extern_env) :
  Forall (fun d =>
            min_delay d <= max_delay d /\
            fifo_reserve_count d <= fifo_max_count d /\
            (0 < resolution d)%Q /\ (resolution d < range d)%Q)
         (enumerate ext macros).
Proof.
  rewrite enumerate_macros.
  destruct (ext "SENSOR_FLAG_CONTINUOUS_MODE"); constructor.
  - split; [discriminate|]. split; [discriminate|].
    split; vm_compute; reflexivity.
  - constructor.
Qed.

Lemma enumerate_within_limit (ext : extern_env) :
  Z.of_nat (length (enumerate ext macros)) <= MAX_NUM_SENSORS.
Proof.
  rewrite enumerate_macros.
  destruct (ext "SENSOR_FLAG_CONTINUOUS_MODE"); discriminate.
Qed.

(** ** The claims *)

(** C1: the header defines exactly one sensor descriptor, the
    uncalibrated-pressure one; whatever value the flag symbol has, the
    consumer enumerating descriptors reports exactly one sensor, with name
    "UNCALI_PRESSURE", vendor "Bosch", min_delay 20000, max_delay 1000000
    and fifo_max_count 0. *)
Theorem one_descriptor_reported (v : Z) :
  descriptor_names macros = ["UNCALI_PRESSURE"] /\
  length (enumerate (with_flag v) macros) = 1%nat /\
  map report (enumerate (with_flag v) macros)
  = [("UNCALI_PRESSURE", "Bosch", 20000, 1000000, 0)].
Proof.
  rewrite enumerate_macros.
  change (with_flag v "SENSOR_FLAG_CONTINUOUS_MODE") with (Some v).
  split; [reflexivity|]. split; reflexivity.
Qed.

(** C2: MAX_NUM_SENSORS is 1, hence at least 1 and at least the number of
    sensor descriptors the header defines, which is 1. *)
Theorem max_num_sensors_limit :
  MAX_NUM_SENSORS = 1 /\
  (forall ext, macro_int ext macros "MAX_NUM_SENSORS" = Some 1) /\
  1 <= MAX_NUM_SENSORS /\
  length (descriptor_names macros) = 1%nat /\
  Z.of_nat (length (descriptor_names macros)) <= MAX_NUM_SENSORS.
Proof.
  split; [reflexivity|].
  split; [intro ext; reflexivity|].
  split; [discriminate|].
  split; [reflexivity|].
  rewrite descriptor_names_macros. discriminate.
Qed.

(** C3: the four per-type minimum delays are 20000 (magnetometer), 20000
    (orientation), 10000 (accelerometer) and 10000 (gyroscope); each is the
    value of its macro and each is positive. *)
Theorem mindelay_values_positive :
  MAGNETOMETER_MINDELAY = 20000 /\
  ORIENTATION_MINDELAY = 20000 /\
  ACCELEROMETER_MINDELAY = 10000 /\
  GYROSCOPE_MINDELAY = 10000 /\
  Forall (fun xv => 0 < snd xv /\
                    forall ext, macro_int ext macros (fst xv) = Some (snd xv))
         mindelay_constants.
Proof.
  do 4 (split; [reflexivity|]).
  repeat (constructor; [split; [reflexivity | intro ext; reflexivity]|]).
  constructor.
Qed.

(** C4: the minimum delay of the uncalibrated-pressure descriptor is at
    most its maximum delay, 20000 <= 1000000, for the constants and for
    the values of their macros. *)
Theorem uncali_pressure_delay_order :
  UNCALI_PRESSURE_MINDELAY <= UNCALI_PRESSURE_MAXDELAY /\
  UNCALI_PRESSURE_MINDELAY = 20000 /\
  UNCALI_PRESSURE_MAXDELAY = 1000000 /\
  (forall ext,
      macro_int ext macros "UNCALI_PRESSURE_MINDELAY"
      = Some UNCALI_PRESSURE_MINDELAY /\
      macro_int ext macros "UNCALI_PRESSURE_MAXDELAY"
      = Some UNCALI_PRESSURE_MAXDELAY).
Proof.
  split; [discriminate|].
  do 2 (split; [reflexivity|]).
  intro ext. split; reflexivity.
Qed.

(** C5: the reserved FIFO count of the uncalibrated-pressure descriptor is
    at most its FIFO capacity, 0 <= 0, for the constants and for the values
    of their macros. *)
Theorem uncali_pressure_fifo_order :
  UNCALI_PRESSURE_FIFO_RESERVE_COUNT <= UNCALI_PRESSURE_FIFO_MAX_COUNT /\
  UNCALI_PRESSURE_FIFO_RESERVE_COUNT = 0 /\
  UNCALI_PRESSURE_FIFO_MAX_COUNT = 0 /\
  (forall ext,
      macro_int ext macros "UNCALI_PRESSURE_FIFO_RESERVE_COUNT"
      = Some UNCALI_PRESSURE_FIFO_RESERVE_COUNT /\
      macro_int ext macros "UNCALI_PRESSURE_FIFO_MAX_COUNT"
      = Some UNCALI_PRESSURE_FIFO_MAX_COUNT).
Proof.
  split; [discriminate|].
  do 2 (split; [reflexivity|]).
  intro ext. split; reflexivity.
Qed.

(** C6: the remaining numeric macros of the block spell, as exact decimal
    numbers, version 1, range 1572.86 = 157286/100, resolution
    0.0016 = 16/10000, power 0 and maximum delay 1000000. *)
Theorem uncali_pressure_literals :
  UNCALI_PRESSURE_VERSION = 1 /\
  (UNCALI_PRESSURE_RANGE == 157286 # 100)%Q /\
  (UNCALI_PRESSURE_RESOLUTION == 16 # 10000)%Q /\
  UNCALI_PRESSURE_POWER = 0 /\
  UNCALI_PRESSURE_MAXDELAY = 1000000 /\
  macro_literal macros "UNCALI_PRESSURE_VERSION" = Some 1%Q /\
  macro_literal macros "UNCALI_PRESSURE_RANGE" = Some (157286 # 100)%Q /\
  macro_literal macros "UNCALI_PRESSURE_RESOLUTION" = Some (16 # 10000)%Q /\
  macro_literal macros "UNCALI_PRESSURE_POWER" = Some 0%Q /\
  macro_literal macros "UNCALI_PRESSURE_MAXDELAY" = Some 1000000%Q.
Proof. do 9 (split; [reflexivity|]). reflexivity. Qed.

(** C7: the string-valued macros of the header are the sensor name,
    "UNCALI_PRESSURE", and the vendor, "Bosch", and none of them is
    empty. *)
Theorem string_constants_nonempty :
  UNCALI_PRESSURE = "UNCALI_PRESSURE" /\
  UNCALI_PRESSURE_VENDER = "Bosch" /\
  string_macros macros
  = [("UNCALI_PRESSURE", "UNCALI_PRESSURE");
     ("UNCALI_PRESSURE_VENDER", "Bosch")] /\
  Forall (fun xs => (0 < String.length (snd xs))%nat) (string_macros macros) /\
  (0 < String.length UNCALI_PRESSURE)%nat /\
  (0 < String.length UNCALI_PRESSURE_VENDER)%nat.
Proof.
  do 2 (split; [reflexivity|]).
  split; [vm_compute; reflexivity|].
  split.
  - change (string_macros macros)
      with [("UNCALI_PRESSURE", UNCALI_PRESSURE);
            ("UNCALI_PRESSURE_VENDER", UNCALI_PRESSURE_VENDER)].
    repeat (constructor; [cbn; lia|]). constructor.
  - split; cbn; lia.
Qed.

(** C8: UNCALI_PRESSURE_FLAGS is whatever value the including translation
    unit gives the symbol SENSOR_FLAG_CONTINUOUS_MODE; the header defines
    no macro of that name and puts no number in its place. *)
Theorem flags_follow_external_symbol (ext : extern_env) (v : Z) :
  ext "SENSOR_FLAG_CONTINUOUS_MODE" = Some v ->
  macro_int ext macros "UNCALI_PRESSURE_FLAGS" = Some v /\
  expand_macros macros [Ident "UNCALI_PRESSURE_FLAGS"]
  = [Ident "SENSOR_FLAG_CONTINUOUS_MODE"] /\
  lookup "SENSOR_FLAG_CONTINUOUS_MODE" macros = None /\
  macro_literal macros "UNCALI_PRESSURE_FLAGS" = None.
Proof.
  intro Hv. rewrite flags_value.
  split; [assumption|]. do 2 (split; [reflexivity|]). reflexivity.
Qed.

Lemma flags_follow_external_symbol_witness :
  with_flag 6 "SENSOR_FLAG_CONTINUOUS_MODE" = Some 6 /\
  (macro_int (with_flag 6) macros "UNCALI_PRESSURE_FLAGS" = Some 6 /\
   expand_macros macros [Ident "UNCALI_PRESSURE_FLAGS"]
   = [Ident "SENSOR_FLAG_CONTINUOUS_MODE"] /\
   lookup "SENSOR_FLAG_CONTINUOUS_MODE" macros = None /\
   macro_literal macros "UNCALI_PRESSURE_FLAGS" = None).
Proof.
  split; [reflexivity|].
  apply (flags_follow_external_symbol (with_flag 6) 6). reflexivity.
Defined.

(** C9: the magnetometer, orientation and uncalibrated-pressure minimum
    delays are equal, the accelerometer and gyroscope ones are equal, and
    the former is twice the latter. *)
Theorem mindelay_relations :
  MAGNETOMETER_MINDELAY = ORIENTATION_MINDELAY /\
  ORIENTATION_MINDELAY = UNCALI_PRESSURE_MINDELAY /\
  ACCELEROMETER_MINDELAY = GYROSCOPE_MINDELAY /\
  MAGNETOMETER_MINDELAY = 2 * ACCELEROMETER_MINDELAY /\
  (forall ext,
      macro_int ext macros "MAGNETOMETER_MINDELAY"
      = macro_int ext macros "ORIENTATION_MINDELAY" /\
      macro_int ext macros "ORIENTATION_MINDELAY"
      = macro_int ext macros "UNCALI_PRESSURE_MINDELAY" /\
      macro_int ext macros "ACCELEROMETER_MINDELAY"
      = macro_int ext macros "GYROSCOPE_MINDELAY" /\
      macro_int ext macros "MAGNETOMETER_MINDELAY"
      = option_map (Z.mul 2) (macro_int ext macros "ACCELEROMETER_MINDELAY")).
Proof.
  do 4 (split; [reflexivity|]).
  intro ext. do 3 (split; [reflexivity|]). reflexivity.
Qed.

(** C10: the resolution of the uncalibrated-pressure sensor is strictly
    positive and strictly below its range, 0 < 0.0016 < 1572.86 as exact
    rationals; the same order holds between the values the two constants
    have as [double] and as [float]. *)
Theorem uncali_pressure_resolution_range :
  (0 < UNCALI_PRESSURE_RESOLUTION)%Q /\
  (UNCALI_PRESSURE_RESOLUTION < UNCALI_PRESSURE_RANGE)%Q /\
  (0 < round_double UNCALI_PRESSURE_RESOLUTION)%Q /\
  (round_double UNCALI_PRESSURE_RESOLUTION
   < round_float UNCALI_PRESSURE_RANGE)%Q.
Proof.
  do 3 (split; [vm_compute; reflexivity|]). vm_compute. reflexivity.
Qed.

(** * Further properties of the header *)

(** ** Lookup in a macro table *)

Lemma lookup_app (y : string) (t1 t2 : macro_table) :
  lookup y (t1 ++ t2)
  = match lookup y t1 with Some b => Some b | None => lookup y t2 end.
Proof.
  induction t1 as [|[x b] t1 IH]; simpl; [reflexivity|].
  destruct (String.eqb y x); [reflexivity | assumption].
Qed.

Lemma lookup_undef (y x : string) (t : macro_table) :
  lookup y (undef x t) = if String.eqb y x then None else lookup y t.
Proof.
  induction t as [|[z b] t IH]; simpl.
  - destruct (String.eqb y x); reflexivity.
  - destruct (String.eqb x z) eqn:Exz.
    + apply String.eqb_eq in Exz. subst z. rewrite IH.
      destruct (String.eqb y x); reflexivity.
    + simpl. rewrite IH.
      destruct (String.eqb y z) eqn:Eyz; [|reflexivity].
      apply String.eqb_eq in Eyz. subst z.
      destruct (String.eqb y x) eqn:Eyx; [|reflexivity].
      apply String.eqb_eq in Eyx. subst y.
      rewrite String.eqb_refl in Exz. discriminate.
Qed.

Lemma lookup_define (y x : string) (b : list token) (t : macro_table) :
  lookup y (define x b t) = if String.eqb y x then Some b else lookup y t.
Proof.
  unfold define. rewrite lookup_app, lookup_undef. simpl.
  destruct (String.eqb y x); [reflexivity|].
  destruct (lookup y t); reflexivity.
Qed.

Lemma lookup_define_all (y : string) (l : macro_table) :
  forall t : macro_table,
    lookup y (define_all l t)
    = match lookup y (rev l) with Some b => Some b | None => lookup y t end.
Proof.
  induction l as [|[x b] l IH]; intro t; [reflexivity|].
  unfold define_all in *. cbn [fold_left fst snd rev].
  rewrite IH, lookup_app, lookup_define. simpl.
  destruct (lookup y (rev l)); [reflexivity|].
  destruct (String.eqb y x); reflexivity.
Qed.

Lemma lookup_not_in (y : string) (t : macro_table) :
  ~ In y (map fst t) -> lookup y t = None.
Proof.
  induction t as [|[x b] t IH]; simpl; [reflexivity|]. intro H.
  destruct (String.eqb y x) eqn:E.
  - apply String.eqb_eq in E. subst. tauto.
  - apply IH. tauto.
Qed.

Lemma lookup_in (y : string) (b : list token) (t : macro_table) :
  lookup y t = Some b -> In (y, b) t.
Proof.
  induction t as [|[x c] t IH]; simpl; [discriminate|].
  destruct (String.eqb y x) eqn:E; intro H.
  - apply String.eqb_eq in E. left. congruence.
  - right. apply IH, H.
Qed.

Lemma lookup_rev (y : string) (t : macro_table) :
  NoDup (map fst t) -> lookup y (rev t) = lookup y t.
Proof.
  induction t as [|[x b] t IH]; [reflexivity|].
  cbn [map fst]. intro H. inversion H as [|? ? Hx Ht]; subst.
  cbn [rev]. rewrite lookup_app, (IH Ht). simpl.
  destruct (String.eqb y x) eqn:E.
  - apply String.eqb_eq in E. subst y.
    rewrite (lookup_not_in x t Hx). reflexivity.
  - destruct (lookup y t); reflexivity.
Qed.

Lemma undef_fresh (x : string) (t : macro_table) :
  lookup x t = None -> undef x t = t.
Proof.
  induction t as [|[y b] t IH]; simpl; [reflexivity|].
  destruct (String.eqb x y); [discriminate|].
  intro H. rewrite (IH H). reflexivity.
Qed.

Lemma define_all_fresh (l : macro_table) :
  forall t : macro_table,
    NoDup (map fst l) ->
    Forall (fun x => lookup x t = None) (map fst l) ->
    define_all l t = t ++ l.
Proof.
  induction l as [|[x b] l IH]; intros t Hnd Hfr.
  - simpl. rewrite app_nil_r. reflexivity.
  - cbn [map fst] in Hnd, Hfr.
    inversion Hnd as [|? ? Hx Hl]; subst.
    inversion Hfr as [|? ? Hxt Hlt]; subst.
    unfold define_all in *. cbn [fold_left fst snd].
    unfold define at 2. rewrite (undef_fresh x t Hxt).
    rewrite IH; [rewrite <- app_assoc; reflexivity | assumption |].
    apply Forall_forall. intros y Hy.
    rewrite lookup_app. rewrite Forall_forall in Hlt. rewrite (Hlt y Hy).
    simpl. destruct (String.eqb y x) eqn:E; [|reflexivity].
    apply String.eqb_eq in E. subst. contradiction.
Qed.

(** ** Reading the header in any state *)

Lemma header_shape :
  hwmsen_custom_h
  = Ifndef "__HWMSEN_CUSTOM_H__" :: map define_directive macros ++ [Endif].
Proof. reflexivity. Qed.

Lemma macros_names_distinct : NoDup (map fst macros).
Proof.
  rewrite <- (eq_refl : nodup string_dec (map fst macros) = map fst macros).
  apply NoDup_nodup.
Qed.

Lemma kept_defines (l : macro_table) :
  forall st : pp_state,
    active st = true ->
    fold_left pp_step (map define_directive l) st
    = mk_pp_state (define_all l (table st)) (groups st).
Proof.
  induction l as [|[x b] l IH]; intros [t g] Hst; [reflexivity|].
  cbn [map define_directive fst snd fold_left pp_step].
  rewrite Hst. cbn [table groups].
  rewrite IH; [reflexivity | exact Hst].
Qed.

Lemma define_directives_only (l : macro_table) :
  forallb (fun d => match d with Define _ _ => true | _ => false end)
          (map define_directive l) = true.
Proof. induction l as [|xb l IH]; [reflexivity | exact IH]. Qed.

(** What the header does to any state of the preprocessor: its macros are
    defined when the enclosing groups are kept and the guard is not yet
    defined, and nothing happens otherwise. *)
Lemma header_state (st : pp_state) :
  fold_left pp_step hwmsen_custom_h st
  = if active st && negb (defined "__HWMSEN_CUSTOM_H__" (table st))
    then mk_pp_state (define_all macros (table st)) (groups st)
    else st.
Proof.
  rewrite header_shape. cbn [fold_left]. rewrite fold_left_app.
  destruct st as [t g]. cbn [pp_step table groups fold_left].
  destruct (active {| table := t; groups := g |}
            && negb (defined "__HWMSEN_CUSTOM_H__" t)) eqn:E.
  - rewrite kept_defines; [reflexivity|].
    unfold active in *. cbn [groups forallb] in *.
    apply andb_true_iff in E as [E _]. rewrite E. reflexivity.
  - rewrite skipped_defines;
      [reflexivity | reflexivity | apply define_directives_only].
Qed.

Lemma lookup_header (y : string) (t : macro_table) :
  lookup y (preprocess hwmsen_custom_h t)
  = if defined "__HWMSEN_CUSTOM_H__" t then lookup y t
    else match lookup y macros with
         | Some b => Some b
         | None => lookup y t
         end.
Proof.
  unfold preprocess. rewrite header_state. cbn [active groups forallb table].
  destruct (defined "__HWMSEN_CUSTOM_H__" t); cbn [negb andb table];
    [reflexivity|].
  rewrite lookup_define_all, (lookup_rev y macros macros_names_distinct).
  reflexivity.
Qed.

Lemma guard_defined_after (t : macro_table) :
  defined "__HWMSEN_CUSTOM_H__" (preprocess hwmsen_custom_h t) = true.
Proof.
  unfold defined at 1. rewrite lookup_header.
  destruct (defined "__HWMSEN_CUSTOM_H__" t) eqn:E; [|reflexivity].
  unfold defined in E. destruct (lookup "__HWMSEN_CUSTOM_H__" t);
    [reflexivity | discriminate].
Qed.

(** ** Macro replacement with the header's macros *)

(** No replacement list of the header mentions a macro: whatever the fuel
    and the table, it is its own replacement, as long as the table leaves
    the flag symbol alone. *)
Lemma macro_bodies_plain (x : string) (b : list token) :
  lookup x macros = Some b ->
  forall (n : nat) (t : macro_table),
    lookup "SENSOR_FLAG_CONTINUOUS_MODE" t = None ->
    expand n t b = b.
Proof.
  intros H n t Ht. apply lookup_in in H. vm_compute in H.
  repeat (destruct H as [H|H];
          [inversion H; subst; clear H; destruct n; [reflexivity|];
           cbn [expand flat_map app]; try rewrite Ht; reflexivity|]).
  contradiction.
Qed.

(** ** Inclusion of the header *)

(** X1: once the guard macro is defined, including the header before any
    other directives is the same as not including it. *)
Theorem guard_skips_header (t : macro_table) (ds : list directive) :
  defined "__HWMSEN_CUSTOM_H__" t = true ->
  preprocess (hwmsen_custom_h ++ ds) t = preprocess ds t.
Proof.
  intro H. unfold preprocess. rewrite fold_left_app, header_state.
  cbn [table]. rewrite H, andb_false_r. reflexivity.
Qed.

Lemma guard_skips_header_witness :
  defined "__HWMSEN_CUSTOM_H__" macros = true /\
  preprocess (hwmsen_custom_h ++ [Define "MAX_NUM_SENSORS" [IntLit 2]]) macros
  = preprocess [Define "MAX_NUM_SENSORS" [IntLit 2]] macros.
Proof.
  split; [reflexivity|].
  apply (guard_skips_header macros [Define "MAX_NUM_SENSORS" [IntLit 2]]).
  reflexivity.
Defined.

(** X2: including the header twice gives the macros of including it once,
    whatever was defined before. *)
Theorem inclusion_idempotent (t : macro_table) :
  preprocess hwmsen_custom_h (preprocess hwmsen_custom_h t)
  = preprocess hwmsen_custom_h t.
Proof. apply include_guard, guard_defined_after. Qed.

(** X3: when none of the header's names is defined yet, the first inclusion
    appends its macros, in source order, to the table and leaves the earlier
    entries where they are. *)
Theorem fresh_inclusion_appends (t : macro_table) (ds : list directive) :
  forallb (fun x => negb (defined x t)) (map fst macros) = true ->
  preprocess (hwmsen_custom_h ++ ds) t = preprocess ds (t ++ macros).
Proof.
  intro H. rewrite forallb_forall in H.
  assert (Hfr : Forall (fun x => lookup x t = None) (map fst macros)).
  { apply Forall_forall. intros x Hx. specialize (H x Hx).
    unfold defined in H. destruct (lookup x t); [discriminate|reflexivity]. }
  unfold preprocess. rewrite fold_left_app, header_state.
  cbn [active groups forallb table andb].
  rewrite (H "__HWMSEN_CUSTOM_H__") by (vm_compute; tauto).
  rewrite (define_all_fresh macros t macros_names_distinct Hfr).
  reflexivity.
Qed.

Lemma fresh_inclusion_appends_witness :
  forallb (fun x => negb (defined x [("HAVE_PRESSURE", [IntLit 1])]))
          (map fst macros) = true /\
  preprocess (hwmsen_custom_h ++ []) [("HAVE_PRESSURE", [IntLit 1])]
  = preprocess [] ([("HAVE_PRESSURE", [IntLit 1])] ++ macros).
Proof.
  split; [reflexivity|].
  apply (fresh_inclusion_appends [("HAVE_PRESSURE", [IntLit 1])] []).
  reflexivity.
Defined.

(** X4: a name the header does not define is left as it was, defined or
    not, by an inclusion of the header. *)
Theorem inclusion_frame (t : macro_table) (y : string) :
  lookup y macros = None ->
  lookup y (preprocess hwmsen_custom_h t) = lookup y t.
Proof.
  intro H. rewrite lookup_header, H.
  destruct (defined "__HWMSEN_CUSTOM_H__" t); reflexivity.
Qed.

Lemma inclusion_frame_witness :
  lookup "SENSOR_FLAG_CONTINUOUS_MODE" macros = None /\
  lookup "SENSOR_FLAG_CONTINUOUS_MODE"
         (preprocess hwmsen_custom_h
                     [("SENSOR_FLAG_CONTINUOUS_MODE", [IntLit 0])])
  = lookup "SENSOR_FLAG_CONTINUOUS_MODE"
           [("SENSOR_FLAG_CONTINUOUS_MODE", [IntLit 0])].
Proof.
  split; [reflexivity|].
  apply (inclusion_frame [("SENSOR_FLAG_CONTINUOUS_MODE", [IntLit 0])]
                         "SENSOR_FLAG_CONTINUOUS_MODE").
  reflexivity.
Defined.

(** X5: an inclusion that the guard does not skip gives every name of the
    header the header's replacement list, also a name that had another
    definition before. *)
Theorem inclusion_overrides (t : macro_table) (x : string) (b : list token) :
  defined "__HWMSEN_CUSTOM_H__" t = false ->
  lookup x macros = Some b ->
  lookup x (preprocess hwmsen_custom_h t) = Some b.
Proof. intros Hg Hx. rewrite lookup_header, Hg, Hx. reflexivity. Qed.

Lemma inclusion_overrides_witness :
  defined "__HWMSEN_CUSTOM_H__" [("MAX_NUM_SENSORS", [IntLit 4])] = false /\
  lookup "MAX_NUM_SENSORS" macros = Some [IntLit 1] /\
  lookup "MAX_NUM_SENSORS"
         (preprocess hwmsen_custom_h [("MAX_NUM_SENSORS", [IntLit 4])])
  = Some [IntLit 1].
Proof.
  split; [reflexivity|]. split; [reflexivity|].
  apply (inclusion_overrides [("MAX_NUM_SENSORS", [IntLit 4])]
                             "MAX_NUM_SENSORS" [IntLit 1]);
    reflexivity.
Defined.

(** X6: the header closes the one conditional group it opens: in every
    state of the preprocessor the open groups are the same after the header
    as before it. *)
Theorem header_balanced (st : pp_state) :
  groups (fold_left pp_step hwmsen_custom_h st) = groups st.
Proof.
  rewrite header_state.
  destruct (active st && negb (defined "__HWMSEN_CUSTOM_H__" (table st)));
    reflexivity.
Qed.

(** X7: inside a conditional group that is being skipped the header defines
    nothing, not even its guard. *)
Theorem header_in_skipped_group (st : pp_state) :
  active st = false ->
  fold_left pp_step hwmsen_custom_h st = st.
Proof. intro H. rewrite header_state, H. reflexivity. Qed.

Lemma header_in_skipped_group_witness :
  active (mk_pp_state [] [false]) = false /\
  fold_left pp_step hwmsen_custom_h (mk_pp_state [] [false])
  = mk_pp_state [] [false].
Proof.
  split; [reflexivity|].
  apply (header_in_skipped_group (mk_pp_state [] [false])). reflexivity.
Defined.

(** ** Replacement and values *)

(** X8: replacement with the header's macros takes one step, since no
    replacement list of the header mentions a macro of the header, and a
    replaced token list is left as it is by a second replacement. *)
Theorem replacement_single_step (ts : list token) :
  expand_macros macros ts = expand 1 macros ts /\
  expand_macros macros (expand_macros macros ts) = expand_macros macros ts.
Proof.
  assert (H1 : forall l, expand_macros macros l = expand 1 macros l).
  { intro l. unfold expand_macros. cbn [expand].
    apply flat_map_ext. intros [n|q sfx|s|x]; try reflexivity.
    destruct (lookup x macros) as [b|] eqn:E; [|reflexivity].
    apply (macro_bodies_plain x b E).
    rewrite lookup_undef.
    destruct (String.eqb "SENSOR_FLAG_CONTINUOUS_MODE" x); reflexivity. }
  split; [apply H1|]. rewrite !H1.
  induction ts as [|tk ts IH]; [reflexivity|].
  cbn [expand flat_map] in *. rewrite flat_map_app, IH. f_equal.
  destruct tk as [n|q sfx|s|x]; try reflexivity.
  destruct (lookup x macros) as [b|] eqn:E.
  - apply (macro_bodies_plain x b E 1%nat macros). reflexivity.
  - cbn [flat_map]. rewrite E. reflexivity.
Qed.

(** X9: every macro of the header that is an integer literal has that
    literal as its value in every translation unit: the literal is not
    negative and fits the 32-bit [int]. *)
Theorem int_macros_fit_int (ext : extern_env) (x : string) (n : Z) :
  lookup x macros = Some [IntLit n] ->
  0 <= n <= INT_MAX /\ macro_int ext macros x = Some n.
Proof.
  intro H. apply lookup_in in H. vm_compute in H.
  repeat (destruct H as [H|H];
          [inversion H; subst; clear H;
           (split; [split; discriminate | reflexivity])|]).
  contradiction.
Qed.

Lemma int_macros_fit_int_witness :
  lookup "UNCALI_PRESSURE_MAXDELAY" macros = Some [IntLit 1000000] /\
  0 <= 1000000 <= INT_MAX /\
  macro_int (fun _ => None) macros "UNCALI_PRESSURE_MAXDELAY" = Some 1000000.
Proof.
  split; [reflexivity|].
  apply (int_macros_fit_int (fun _ => None)
                            "UNCALI_PRESSURE_MAXDELAY" 1000000).
  reflexivity.
Defined.

(** X10: the guard and MSENSOR_AMI_LIB are the macros defined with nothing
    after the name; they are defined, are replaced by no token at all and
    have no value in any translation unit. *)
Theorem empty_macros_no_value (ext : extern_env) :
  empty_macros macros = ["__HWMSEN_CUSTOM_H__"; "MSENSOR_AMI_LIB"] /\
  Forall (fun x => defined x macros = true /\
                   expand_macros macros [Ident x] = [] /\
                   macro_value ext macros x = None)
         (empty_macros macros).
Proof.
  split; [reflexivity|].
  change (empty_macros macros)
    with ["__HWMSEN_CUSTOM_H__"; "MSENSOR_AMI_LIB"].
  repeat (constructor;
          [split; [reflexivity | split; reflexivity]|]).
  constructor.
Qed.
